(** * Event-aware scorers of [examples/events_scorer.py]

    A shallow embedding of the two scorers of the example,
    [process_aware_scorer] and [step_verification_scorer], and the
    properties of their results.

    Python's [float] is IEEE 754 binary64 with round-to-nearest-even, which
    is what the kernel's primitive floats implement, so score arithmetic is
    carried out on [PrimFloat.float] and agrees with the interpreter bit for
    bit.  [str] values are modelled by [string]; the result's [metadata]
    dictionary by a [gmap] from its string keys.

    The scorers are embedded twice.  First as functions from the state and
    the target to the score, one [let] per assignment of the source.  Then,
    in module [Imp], as computations over the interpreter's store, where
    lists are objects that can be shared and updated and where a step can
    raise; the runs of [Imp] are shown to return what the functions
    compute, to raise nowhere and to leave the caller's objects alone. *)

From Stdlib Require Import String Ascii List Bool Arith Lia.
From Stdlib Require Import DecimalString DecimalFacts DecimalNat PrimFloat.
From stdpp Require Import gmap strings.

Set Warnings "-inexact-float".
Local Open Scope string_scope.
Local Open Scope list_scope.

(** ** The Python builtins the scorers call *)

Module Py.

(** [sub in s] on [str]: [sub] starts at some position of [s]. *)
Fixpoint contains (sub s : string) : bool :=
  if String.prefix sub s then true
  else match s with
       | EmptyString => false
       | String _ s' => contains sub s'
       end.

(** [sep.join(l)]. *)
Definition join (sep : string) (l : list string) : string :=
  String.concat sep l.

(** [str(n)] for a non-negative [int], as an f-string field prints it. *)
Definition str (n : nat) : string :=
  NilEmpty.string_of_uint (Nat.to_uint n).

(** [min(a, b)]: the first argument is kept unless the second is
    strictly smaller. *)
Definition min (a b : float) : float :=
  if (b <? a)%float then b else a.

(** [max(a, b)]: the first argument is kept unless the second is
    strictly greater. *)
Definition max (a b : float) : float :=
  if (a <? b)%float then b else a.

End Py.

(** ** Data model *)

(** [ToolEvent]: the scorers read its [function] attribute only. *)
Record ToolEvent := { function : string }.

(** [state.events] holds events of many classes; [isinstance] splits them
    into [ToolEvent]s, [ModelEvent]s and the rest (named by its class). *)
Inductive Event :=
| EModel
| ETool (t : ToolEvent)
| EOther (class_name : string).

Record ModelOutput := { completion : string }.

Record TaskState := { events : list Event; output : ModelOutput }.

Record Target := { text : string }.

(** Values stored in [Score.metadata]. *)
Inductive MetaValue :=
| VInt (n : nat)
| VBool (b : bool)
| VStrList (l : list string).

Record Score := {
  value : float;
  answer : string;
  explanation : string;
  metadata : gmap string MetaValue
}.

(** [[e for e in events if isinstance(e, ToolEvent)]] *)
Fixpoint tool_events_of (evs : list Event) : list ToolEvent :=
  match evs with
  | [] => []
  | ETool t :: evs' => t :: tool_events_of evs'
  | _ :: evs' => tool_events_of evs'
  end.

Definition is_model_event (e : Event) : bool :=
  match e with EModel => true | _ => false end.

Definition is_tool_event (e : Event) : bool :=
  match e with ETool _ => true | _ => false end.

Definition is_other_event (e : Event) : bool :=
  match e with EOther _ => true | _ => false end.

(** [[e for e in events if isinstance(e, ModelEvent)]] *)
Definition model_events_of (evs : list Event) : list Event :=
  List.filter is_model_event evs.

(** ** [process_aware_scorer] *)

(** The loop [for event in tool_events: tool_calls.append(event.function)],
    started from [tool_calls = []]. *)
Definition collect_tool_calls (tool_events : list ToolEvent) : list string :=
  fold_left (fun tool_calls event => tool_calls ++ [function event])
            tool_events [].

(** [1.0 if target.text in state.output.completion else 0.0] *)
Definition initial_score (state : TaskState) (target : Target) : float :=
  if Py.contains (text target) (completion (output state))
  then 1.0%float else 0.0%float.

(** [base_score] once the bonus and the penalty have been applied
    (lines 74 to 82), before it is clamped. *)
Definition adjust_score (base_score : float) (tool_calls : list string) : float :=
  let base_score :=
    if (0 <? length tool_calls)%nat then (base_score + 0.1)%float else base_score in
  let base_score :=
    if (3 <? length tool_calls)%nat then (base_score - 0.2)%float else base_score in
  base_score.

Definition explanation_of (n_events n_model : nat) (tool_calls : list string)
  : string :=
  "Found " ++ Py.str n_events ++ " total events: "
  ++ Py.str n_model ++ " model calls, "
  ++ Py.str (length tool_calls) ++ " tool calls. "
  ++ "Tools used: "
  ++ (match tool_calls with
      | [] => "none"
      | _ => Py.join ", " tool_calls
      end)
  ++ ".".

Definition process_aware_scorer (state : TaskState) (target : Target) : Score :=
  let events := events state in
  let tool_events := tool_events_of events in
  let model_events := model_events_of events in
  let tool_calls := collect_tool_calls tool_events in
  let base_score := adjust_score (initial_score state target) tool_calls in
  let final_score := Py.max 0.0%float (Py.min 1.0%float base_score) in
  {| value := final_score;
     answer := completion (output state);
     explanation :=
       explanation_of (length events) (length model_events) tool_calls;
     metadata :=
       <["total_events" := VInt (length events)]>
       (<["model_events" := VInt (length model_events)]>
       (<["tool_events" := VInt (length tool_events)]>
       (<["tools_used" := VStrList tool_calls]> ∅))) |}.

(** ** [step_verification_scorer] *)

Definition step_verification_scorer (state : TaskState) (target : Target)
  : Score :=
  let events := events state in
  let tool_events := tool_events_of events in
  let add_tool_used :=
    existsb (fun e => String.eqb (function e) "add") tool_events in
  let correct := Py.contains (text target) (completion (output state)) in
  let '(score_value, explanation) :=
    if correct && add_tool_used then
      (1.0%float, "Correct answer and used required add tool")
    else if correct && negb add_tool_used then
      (0.5%float, "Correct answer but did not use required add tool")
    else if negb correct && add_tool_used then
      (0.3%float, "Used required add tool but incorrect answer")
    else
      (0.0%float, "Incorrect answer and did not use required add tool") in
  {| value := score_value;
     answer := completion (output state);
     explanation := explanation;
     metadata := {["add_tool_used" := VBool add_tool_used]} |}.

(** Inputs for the concrete scenarios. *)
Definition mk_state (evs : list Event) (c : string) : TaskState :=
  {| events := evs; output := {| completion := c |} |}.

Definition tool (f : string) : Event := ETool {| function := f |}.

(** ** Specification vocabulary *)

(** [sub] occurs in [s] as a contiguous substring. *)
Definition is_substring (sub s : string) : Prop :=
  exists pre post, s = (pre ++ sub ++ post)%string.

(** [clamp(x, lo, hi)]. *)
Definition clamp (x lo hi : float) : float :=
  if (x <? lo)%float then lo else if (hi <? x)%float then hi else x.

(** The function names of the tool events of a log, in occurrence order. *)
Definition tool_names (evs : list Event) : list string :=
  flat_map (fun e => match e with ETool t => [function t] | _ => [] end) evs.

(** Some tool event of the log calls the required tool, [add]. *)
Definition required_tool_used (evs : list Event) : Prop :=
  exists t, In (ETool t) evs /\ function t = "add".

(** The score before clamping: [base_score] as line 85 reads it. *)
Definition pre_clamp_score (state : TaskState) (target : Target) : float :=
  adjust_score (initial_score state target)
               (collect_tool_calls (tool_events_of (events state))).

(** How many tool calls there are decides which adjustments fire. *)
Inductive usage := NoCalls | FewCalls | ManyCalls.

Definition usage_of (tool_calls : list string) : usage :=
  match tool_calls with
  | [] => NoCalls
  | _ :: _ :: _ :: _ :: _ => ManyCalls
  | _ => FewCalls
  end.

(** ** The scorers over Python's object store

    The same two functions with the interpreter's store explicit: a list
    is an object at an address, [events = state.events] is another name
    for the caller's list, a list comprehension and [[]] allocate new
    lists, [append] updates a list in place, and the [tools_used] entry of
    the metadata refers to the [tool_calls] object.  Attribute access and
    [join] raise on a value of the wrong class. *)

Module Imp.

Definition loc := positive.

(** What a list holds here: event objects and strings. *)
Inductive pyval :=
| PEvent (e : Event)
| PStr (s : string).

Abbreviation heap := (gmap loc (list pyval)).

(** A computation reads and updates the store, or raises. *)
Definition M (A : Type) : Type := heap -> option (A * heap).

Definition ret {A} (a : A) : M A := fun h => Some (a, h).

Definition bind {A B} (m : M A) (k : A -> M B) : M B :=
  fun h => match m h with
           | Some (a, h') => k a h'
           | None => None
           end.

Definition raise {A} : M A := fun _ => None.

#[local] Instance M_ret : MRet M := @ret.
#[local] Instance M_bind : MBind M := fun A B k m => bind m k.

(** A list display or comprehension: a new object. *)
Definition new_list (l : list pyval) : M loc :=
  fun h => let r := fresh (dom h) in Some (r, <[r := l]> h).

(** The items of the list at [r]. *)
Definition items (r : loc) : M (list pyval) :=
  fun h => match h !! r with
           | Some l => Some (l, h)
           | None => None
           end.

(** [len(r)] *)
Definition len (r : loc) : M nat :=
  l ← items r; ret (length l).

(** [r.append(v)]: the object at [r] is updated in place. *)
Definition append (r : loc) (v : pyval) : M unit :=
  fun h => match h !! r with
           | Some l => Some (tt, <[r := l ++ [v]]> h)
           | None => None
           end.

Definition isinstance_ToolEvent (v : pyval) : bool :=
  match v with PEvent (ETool _) => true | _ => false end.

Definition isinstance_ModelEvent (v : pyval) : bool :=
  match v with PEvent EModel => true | _ => false end.

(** [v.function]: only a [ToolEvent] has the attribute. *)
Definition get_function (v : pyval) : M string :=
  match v with
  | PEvent (ETool t) => ret (function t)
  | _ => raise
  end.

(** The strings of a list whose items are all [str]. *)
Fixpoint strs_of (l : list pyval) : option (list string) :=
  match l with
  | [] => Some []
  | PStr s :: l' => option_map (cons s) (strs_of l')
  | _ :: _ => None
  end.

(** Reading a list as strings, as [join] does; it raises on any other
    item. *)
Definition strs (l : list pyval) : M (list string) :=
  match strs_of l with
  | Some ss => ret ss
  | None => raise
  end.

(** [for x in l: body(x)] *)
Fixpoint for_each {A} (l : list A) (body : A -> M unit) : M unit :=
  match l with
  | [] => ret tt
  | x :: l' => body x;; for_each l' body
  end.

(** [any(e.function == name for e in l)], stopping at the first hit. *)
Fixpoint any_function_is (name : string) (l : list pyval) : M bool :=
  match l with
  | [] => ret false
  | e :: l' =>
      f ← get_function e;
      if String.eqb f name then ret true else any_function_is name l'
  end.

(** The [TaskState] object: [state.events] is a reference to its list. *)
Record TaskStateObj := { events_ref : loc; output_of : ModelOutput }.

(** Metadata values of a [Score] object; a list is held by reference. *)
Inductive MetaObj :=
| OInt (n : nat)
| OBool (b : bool)
| OList (r : loc).

Record ScoreObj := {
  value_of : float;
  answer_of : string;
  explanation_of_score : string;
  metadata_of : gmap string MetaObj
}.

Definition process_aware_scorer (state : TaskStateObj) (target : Target)
  : M ScoreObj :=
  let events := events_ref state in
  evs ← items events;
  tool_events ← new_list (List.filter isinstance_ToolEvent evs);
  model_events ← new_list (List.filter isinstance_ModelEvent evs);
  tool_calls ← new_list [];
  tes ← items tool_events;
  for_each tes (fun event =>
    f ← get_function event; append tool_calls (PStr f));;
  let base_score :=
    if Py.contains (text target) (completion (output_of state))
    then 1.0%float else 0.0%float in
  n ← len tool_calls;
  let base_score := if (0 <? n)%nat then (base_score + 0.1)%float else base_score in
  n ← len tool_calls;
  let base_score := if (3 <? n)%nat then (base_score - 0.2)%float else base_score in
  let final_score := Py.max 0.0%float (Py.min 1.0%float base_score) in
  n_events ← len events;
  n_model ← len model_events;
  calls ← items tool_calls;
  names ← strs calls;
  let explanation := explanation_of n_events n_model names in
  n_events ← len events;
  n_model ← len model_events;
  n_tool ← len tool_events;
  ret {| value_of := final_score;
         answer_of := completion (output_of state);
         explanation_of_score := explanation;
         metadata_of :=
           <["total_events" := OInt n_events]>
           (<["model_events" := OInt n_model]>
           (<["tool_events" := OInt n_tool]>
           (<["tools_used" := OList tool_calls]> ∅))) |}.

Definition step_verification_scorer (state : TaskStateObj) (target : Target)
  : M ScoreObj :=
  let events := events_ref state in
  evs ← items events;
  tool_events ← new_list (List.filter isinstance_ToolEvent evs);
  tes ← items tool_events;
  add_tool_used ← any_function_is "add" tes;
  let correct := Py.contains (text target) (completion (output_of state)) in
  let '(score_value, explanation) :=
    if correct && add_tool_used then
      (1.0%float, "Correct answer and used required add tool")
    else if correct && negb add_tool_used then
      (0.5%float, "Correct answer but did not use required add tool")
    else if negb correct && add_tool_used then
      (0.3%float, "Used required add tool but incorrect answer")
    else
      (0.0%float, "Incorrect answer and did not use required add tool") in
  ret {| value_of := score_value;
         answer_of := completion (output_of state);
         explanation_of_score := explanation;
         metadata_of := {["add_tool_used" := OBool add_tool_used]} |}.

(** What a [Score] object holds in store [h]: a reference in the metadata
    is replaced by the list it refers to. *)
Definition resolve (h : heap) (m : MetaObj) : option MetaValue :=
  match m with
  | OInt n => Some (VInt n)
  | OBool b => Some (VBool b)
  | OList r => l ← h !! r; ss ← strs_of l; Some (VStrList ss)
  end.

Definition contents (h : heap) (s : ScoreObj) : Score :=
  {| value := value_of s;
     answer := answer_of s;
     explanation := explanation_of_score s;
     metadata := omap (resolve h) (metadata_of s) |}.

(** The [TaskState] value that the object [state] holds when its event
    list holds [evs]. *)
Definition state_of (state : TaskStateObj) (evs : list Event) : TaskState :=
  {| events := evs; output := output_of state |}.

End Imp.

(** The list object that holds the events [evs]. *)
Definition event_list (evs : list Event) : list Imp.pyval :=
  List.map Imp.PEvent evs.

(** A store with one list object, the event log of a run. *)
Definition log_at (r : Imp.loc) (evs : list Event)
  : gmap Imp.loc (list Imp.pyval) :=
  {[ r := event_list evs ]}.

(** The store that a computation leaves behind. *)
Definition store_after {A} (m : Imp.M A) (h : gmap Imp.loc (list Imp.pyval))
  : gmap Imp.loc (list Imp.pyval) :=
  match m h with
  | Some (_, h') => h'
  | None => h
  end.

Definition state_at (r : Imp.loc) (c : string) : Imp.TaskStateObj :=
  {| Imp.events_ref := r; Imp.output_of := {| completion := c |} |}.

(** ** Decimal numerals and comma-separated lists *)

(** The value of a decimal digit: its code point less that of the
    digit zero. *)
Definition digit_value (c : ascii) : option nat :=
  let code := nat_of_ascii c in
  if (48 <=? code)%nat && (code <=? 57)%nat then Some (code - 48) else None.

(** The number that the digits of [s] denote, read from the left after
    digits worth [acc]. *)
Fixpoint decimal_value_from (acc : nat) (s : string) : option nat :=
  match s with
  | EmptyString => Some acc
  | String c s' =>
      match digit_value c with
      | Some d => decimal_value_from (10 * acc + d) s'
      | None => None
      end
  end.

Definition decimal_value (s : string) : option nat :=
  match s with
  | EmptyString => None
  | _ => decimal_value_from 0 s
  end.

(** [s] is the decimal numeral of [n] as an [int] prints: at least one
    digit, digits only, and no leading zero (zero itself is "0"). *)
Definition decimal_of (n : nat) (s : string) : Prop :=
  decimal_value s = Some n
  /\ (forall s', s = String "0" s' -> s' = "").

(** The strings of [l] in order, a comma and a space between
    neighbours. *)
Definition comma_joined (l : list string) : string :=
  match l with
  | [] => ""
  | x :: rest => fold_left (fun acc y => acc ++ ", " ++ y)%string rest x
  end.

(** ** Vocabulary of the further properties *)

(** The metadata dictionary of [process_aware_scorer], by its four
    values. *)
Definition metadata_map (total model tools : nat) (used : list string)
  : gmap string MetaValue :=
  <["total_events" := VInt total]>
  (<["model_events" := VInt model]>
  (<["tool_events" := VInt tools]>
  (<["tools_used" := VStrList used]> ∅))).

(** The tool events of a log. *)
Definition n_tool_calls (evs : list Event) : nat :=
  length (List.filter is_tool_event evs).

(** How [isinstance] sees an item of a list: an event as it is, anything
    else as an object of another class. *)
Definition event_of (v : Imp.pyval) : Event :=
  match v with
  | Imp.PEvent e => e
  | Imp.PStr _ => EOther "str"
  end.

(** * Proofs *)

(** ** Facts about the builtins and the partitions *)

Lemma prefix_app sub s :
  String.prefix sub s = true <-> exists post, s = (sub ++ post)%string.
Proof.
  revert s; induction sub as [|a sub IH]; intros [|b s]; simpl.
  - split; [intros _; exists ""; reflexivity | reflexivity].
  - split; [intros _; exists (String b s); reflexivity | reflexivity].
  - split; [discriminate | intros [post H]; discriminate].
  - destruct (Ascii.ascii_dec a b) as [->|Hab].
    + rewrite IH. split; intros [post H]; exists post.
      * now rewrite H.
      * now injection H.
    + split; [discriminate | intros [post H]; injection H; congruence].
Qed.

Lemma contains_unfold sub s :
  Py.contains sub s =
  String.prefix sub s
  || match s with
     | EmptyString => false
     | String _ s' => Py.contains sub s'
     end.
Proof. destruct s; cbn [Py.contains]; now destruct (String.prefix sub _). Qed.

Lemma contains_is_substring sub s :
  Py.contains sub s = true <-> is_substring sub s.
Proof.
  unfold is_substring. induction s as [|c s IH];
    rewrite contains_unfold, orb_true_iff, prefix_app.
  - split.
    + intros [[post E]|E]; [|discriminate]. exists "", post. exact E.
    + intros (pre & post & H). left.
      destruct pre; [|discriminate]. exists post. exact H.
  - rewrite IH. split.
    + intros [[post E]|(pre & post & E)].
      * exists "", post. exact E.
      * exists (String c pre), post. cbn. now rewrite E.
    + intros (pre & post & H). destruct pre as [|c' pre]; cbn in H.
      * left. eauto.
      * right. injection H as _ H. eauto.
Qed.

Lemma collect_tool_calls_from acc tes :
  fold_left (fun tool_calls event => tool_calls ++ [function event]) tes acc
  = acc ++ List.map function tes.
Proof.
  revert acc; induction tes as [|t tes IH]; intros acc; simpl.
  - now rewrite app_nil_r.
  - rewrite IH, <- app_assoc. reflexivity.
Qed.

Lemma collect_tool_calls_map tes :
  collect_tool_calls tes = List.map function tes.
Proof. apply collect_tool_calls_from. Qed.

Lemma tool_names_map evs :
  List.map function (tool_events_of evs) = tool_names evs.
Proof.
  induction evs as [|[| t |k] evs IH]; simpl; auto. now rewrite IH.
Qed.

Lemma tool_calls_names evs :
  collect_tool_calls (tool_events_of evs) = tool_names evs.
Proof. now rewrite collect_tool_calls_map, tool_names_map. Qed.

Lemma tool_events_length evs :
  length (tool_events_of evs) = length (List.filter is_tool_event evs).
Proof.
  induction evs as [|[| t |k] evs IH]; simpl; auto.
Qed.

Lemma partition_lengths evs :
  length (tool_events_of evs) + length (model_events_of evs)
  + length (List.filter is_other_event evs) = length evs.
Proof.
  unfold model_events_of.
  induction evs as [|[| t |k] evs IH]; simpl; lia.
Qed.

(** ** The value of [process_aware_scorer] *)

Lemma value_pre_clamp state target :
  value (process_aware_scorer state target)
  = Py.max 0.0%float (Py.min 1.0%float (pre_clamp_score state target)).
Proof. reflexivity. Qed.

Lemma adjust_score_usage base tool_calls :
  adjust_score base tool_calls =
  match usage_of tool_calls with
  | NoCalls => base
  | FewCalls => (base + 0.1)%float
  | ManyCalls => (base + 0.1 - 0.2)%float
  end.
Proof.
  destruct tool_calls as [|a [|b [|c [|d l]]]]; reflexivity.
Qed.

Lemma usage_of_length tool_calls :
  match usage_of tool_calls with
  | NoCalls => length tool_calls = 0
  | FewCalls => 1 <= length tool_calls <= 3
  | ManyCalls => 3 < length tool_calls
  end.
Proof.
  destruct tool_calls as [|a [|b [|c [|d l]]]]; simpl; lia.
Qed.

Lemma initial_score_cases state target :
  (is_substring (text target) (completion (output state))
   /\ initial_score state target = 1.0%float)
  \/ (~ is_substring (text target) (completion (output state))
      /\ initial_score state target = 0.0%float).
Proof.
  unfold initial_score.
  destruct (Py.contains _ _) eqn:E.
  - left. split; [now apply contains_is_substring | reflexivity].
  - right. split; [|reflexivity].
    intros H%contains_is_substring. congruence.
Qed.

(** The six scores that can reach the clamp. *)
Lemma pre_clamp_score_cases state target :
  let tool_calls := tool_names (events state) in
  pre_clamp_score state target =
  match usage_of tool_calls with
  | NoCalls => initial_score state target
  | FewCalls => (initial_score state target + 0.1)%float
  | ManyCalls => (initial_score state target + 0.1 - 0.2)%float
  end.
Proof.
  unfold pre_clamp_score. rewrite tool_calls_names. apply adjust_score_usage.
Qed.

(** Two floats that Python's [==] tells apart are different values. *)
Lemma float_eqb_false_neq (x y : float) :
  (x =? y)%float = false -> (y =? y)%float = true -> x <> y.
Proof. intros Hxy Hyy ->. congruence. Qed.

Ltac float_neq := apply float_eqb_false_neq; vm_compute; reflexivity.

(** C1: the value of [process_aware_scorer] is the base score (1.0 when
    the target text occurs in the completion, else 0.0), plus 0.1 when
    [tool_calls] is non-empty, then minus 0.2 when it has more than three
    entries (both when it has more than three), clamped to [0.0, 1.0]. *)
Theorem process_aware_value_rule (state : TaskState) (target : Target) :
  let tool_calls := tool_names (events state) in
  let bonus (x : float) :=
    match tool_calls with [] => x | _ :: _ => (x + 0.1)%float end in
  let penalty (x : float) :=
    if (3 <? length tool_calls)%nat then (x - 0.2)%float else x in
  exists base : float,
    (is_substring (text target) (completion (output state))
     /\ base = 1.0%float
     \/ ~ is_substring (text target) (completion (output state))
        /\ base = 0.0%float)
    /\ value (process_aware_scorer state target)
       = clamp (penalty (bonus base)) 0.0%float 1.0%float.
Proof.
  intros tool_calls bonus penalty.
  exists (initial_score state target). split.
  - destruct (initial_score_cases state target) as [[H E]|[H E]]; auto.
  - rewrite value_pre_clamp, pre_clamp_score_cases.
    subst bonus penalty. fold tool_calls.
    destruct (initial_score_cases state target) as [[_ ->]|[_ ->]];
      destruct tool_calls as [|a [|b [|c [|d l]]]]; reflexivity.
Qed.

(** C3: whatever the events, target and completion, the value of
    [process_aware_scorer] lies in the closed interval [0.0, 1.0]. *)
Theorem process_aware_value_bounded (state : TaskState) (target : Target) :
  (0.0 <=? value (process_aware_scorer state target))%float = true
  /\ (value (process_aware_scorer state target) <=? 1.0)%float = true.
Proof.
  rewrite value_pre_clamp, pre_clamp_score_cases.
  destruct (initial_score_cases state target) as [[_ ->]|[_ ->]];
    destruct (usage_of _); split; reflexivity.
Qed.

(** C7, as stated, fails: with the target found the score before
    clamping is 1.0 without a tool call and 1.1 with one, and the
    binary64 difference of the two is 0.10000000000000009, not 0.1; with
    three calls it is 1.1 and with four 0.9000000000000001, and that
    difference is 0.19999999999999996, not 0.2. *)
Lemma tool_call_step_not_exact :
  let t42 := {| text := "42" |} in
  let pre0 := pre_clamp_score (mk_state [] "42") t42 in
  let pre1 := pre_clamp_score (mk_state [tool "add"] "42") t42 in
  let pre3 := pre_clamp_score
                (mk_state [tool "add"; tool "add"; tool "add"] "42") t42 in
  let pre4 := pre_clamp_score
                (mk_state [tool "add"; tool "add"; tool "add"; tool "add"]
                          "42") t42 in
  (pre0 = 1.0 /\ pre1 = 1.1 /\ pre3 = 1.1 /\ pre4 = 0.9000000000000001)%float
  /\ (pre1 - pre0 =? 0.1)%float = false
  /\ (pre1 - pre0)%float <> 0.1%float
  /\ (pre3 - pre4 =? 0.2)%float = false
  /\ (pre3 - pre4)%float <> 0.2%float.
Proof.
  cbn zeta. repeat split; vm_compute; float_neq.
Qed.

(** C7, amended: with the base score held fixed, going from no tool call
    to one turns the score before clamping into its binary64 sum with
    0.1, and going from three tool calls to four turns it into its
    binary64 difference with 0.2.  The change, computed in binary64, is
    exactly 0.1 and 0.2 when the target is not found (base 0.0), and
    0.10000000000000009 and 0.19999999999999996 when it is found
    (base 1.0). *)
Theorem tool_call_steps (state state' : TaskState) (target target' : Target) :
  initial_score state target = initial_score state' target' ->
  let n := length (tool_names (events state)) in
  let n' := length (tool_names (events state')) in
  let found := is_substring (text target) (completion (output state)) in
  let pre := pre_clamp_score state target in
  let pre' := pre_clamp_score state' target' in
  (n = 0 -> n' = 1 ->
   pre' = (pre + 0.1)%float
   /\ (~ found -> (pre' - pre)%float = 0.1%float)
   /\ (found -> (pre' - pre)%float = 0.10000000000000009%float))
  /\ (n = 3 -> n' = 4 ->
      pre' = (pre - 0.2)%float
      /\ (~ found -> (pre - pre')%float = 0.2%float)
      /\ (found -> (pre - pre')%float = 0.19999999999999996%float)).
Proof.
  intros Hbase n n' found pre pre'. subst n n' found pre pre'.
  rewrite !pre_clamp_score_cases, <- Hbase.
  generalize (tool_names (events state)) (tool_names (events state')).
  intros l l'.
  destruct (initial_score_cases state target) as [[Hf ->]|[Hf ->]];
    (split; intros Hl Hl';
     destruct l as [|a [|b [|c [|d l]]]]; try discriminate Hl;
     destruct l' as [|a' [|b' [|c' [|d' [|e' l']]]]]; try discriminate Hl';
     repeat split; intros; try reflexivity; contradiction).
Qed.

Lemma tool_call_steps_witness :
  let t42 := {| text := "42" |} in
  let three := [tool "add"; tool "multiply"; EOther "StateEvent"; tool "add"] in
  let four := [tool "add"; EModel; tool "add"; tool "multiply"; tool "add"] in
  (pre_clamp_score (mk_state [tool "add"] "42") t42
   = (pre_clamp_score (mk_state [] "42") t42 + 0.1)%float
   /\ (pre_clamp_score (mk_state [tool "add"] "42") t42
       - pre_clamp_score (mk_state [] "42") t42)%float
      = 0.10000000000000009%float)
  /\ (pre_clamp_score (mk_state four "no") t42
      = (pre_clamp_score (mk_state three "none") t42 - 0.2)%float
      /\ (pre_clamp_score (mk_state three "none") t42
          - pre_clamp_score (mk_state four "no") t42)%float = 0.2%float).
Proof.
  intros t42 three four. split.
  - destruct (tool_call_steps (mk_state [] "42") (mk_state [tool "add"] "42")
                t42 t42 eq_refl) as (H & _).
    destruct (H eq_refl eq_refl) as (Hsum & _ & Hdiff).
    split; [exact Hsum|]. apply Hdiff.
    apply contains_is_substring. reflexivity.
  - destruct (tool_call_steps (mk_state three "none") (mk_state four "no")
                t42 t42 eq_refl) as (_ & H).
    destruct (H eq_refl eq_refl) as (Hsum & Hdiff & _).
    split; [exact Hsum|]. apply Hdiff.
    intros Hc%contains_is_substring. discriminate Hc.
Defined.

(** The steps of C7 are those of binary64 addition and subtraction: the
    difference of the two scores, recomputed in binary64, need not be the
    step itself. *)
Remark step_difference_rounds :
  (pre_clamp_score (mk_state [tool "add"] "42") {| text := "42" |}
   - pre_clamp_score (mk_state [] "42") {| text := "42" |})%float
  = 0.10000000000000009%float.
Proof. reflexivity. Qed.

(** C10, as stated, fails: with the target found and four tool calls the
    value is 1.0 + 0.1 - 0.2 in binary64, which is 0.9000000000000001 and
    is none of 0.0, 0.1, 0.9 and 1.0 (neither for Python's [==] nor as a
    value). *)
Lemma process_aware_value_not_decimal :
  let v := value (process_aware_scorer
                    (mk_state [tool "add"; tool "add"; tool "add"; tool "add"]
                              "42")
                    {| text := "42" |}) in
  v = 0.9000000000000001%float
  /\ existsb (PrimFloat.eqb v) [0.0; 0.1; 0.9; 1.0]%float = false
  /\ ~ In v [0.0; 0.1; 0.9; 1.0]%float.
Proof.
  split; [reflexivity|]. split; [reflexivity|].
  vm_compute value. simpl.
  intros [H|[H|[H|[H|[]]]]]; revert H; apply not_eq_sym; float_neq.
Qed.

(** C10, amended: the value of [process_aware_scorer] is one of 0.0, 0.1,
    0.9000000000000001 (the binary64 result of 1.0 + 0.1 - 0.2) and 1.0;
    the score before clamping is the base score (0.0 or 1.0), the base
    plus 0.1, or the base plus 0.1 minus 0.2, that is one of
    -0.1, 0.0, 0.1, 0.9000000000000001, 1.0 and 1.1. *)
Theorem process_aware_value_set (state : TaskState) (target : Target) :
  let base := initial_score state target in
  let pre := pre_clamp_score state target in
  In base [0.0; 1.0]%float
  /\ In pre [base; base + 0.1; base + 0.1 - 0.2]%float
  /\ In pre [-0.1; 0.0; 0.1; 0.9000000000000001; 1.0; 1.1]%float
  /\ In (value (process_aware_scorer state target))
        [0.0; 0.1; 0.9000000000000001; 1.0]%float.
Proof.
  intros base pre. subst base pre.
  rewrite value_pre_clamp, pre_clamp_score_cases.
  destruct (initial_score_cases state target) as [[_ ->]|[_ ->]];
    destruct (usage_of _); vm_compute; tauto.
Qed.

(** ** Explanation and metadata of [process_aware_scorer] *)

Lemma decimal_value_from_uint (d : Decimal.uint) (acc : nat) :
  decimal_value_from acc (NilEmpty.string_of_uint d)
  = Some (Nat.of_uint_acc d acc).
Proof.
  revert acc; induction d as [|d IH|d IH|d IH|d IH|d IH|d IH|d IH|d IH|d IH|d IH];
    intros acc; [reflexivity|..];
    cbn [NilEmpty.string_of_uint decimal_value_from Nat.of_uint_acc];
    match goal with
    | |- context [digit_value ?c] =>
        let v := eval vm_compute in (digit_value c) in
        change (digit_value c) with v
    end;
    cbv beta iota;
    rewrite IH, Nat.tail_mul_spec; do 2 f_equal; lia.
Qed.

Lemma to_uint_normal (n : nat) :
  Nat.to_uint n = Decimal.unorm (Nat.to_uint n).
Proof.
  rewrite <- (DecimalNat.Unsigned.to_of (Nat.to_uint n)).
  now rewrite DecimalNat.Unsigned.of_to.
Qed.

(** [str(n)] is the decimal numeral of [n]. *)
Lemma str_decimal (n : nat) : decimal_of n (Py.str n).
Proof.
  unfold decimal_of, Py.str. split.
  - assert (decimal_value (NilEmpty.string_of_uint (Nat.to_uint n))
            = decimal_value_from 0 (NilEmpty.string_of_uint (Nat.to_uint n)))
      as ->.
    { destruct (Nat.to_uint n) eqn:E; try reflexivity.
      exfalso. apply (DecimalFacts.unorm_nonnil (Nat.to_uint n)).
      now rewrite <- to_uint_normal. }
    rewrite decimal_value_from_uint.
    change (Nat.of_uint_acc (Nat.to_uint n) 0)
      with (Nat.of_uint (Nat.to_uint n)).
    now rewrite DecimalNat.Unsigned.of_to.
  - intros s' Hs.
    destruct (Nat.to_uint n) as [|d| | | | | | | | |] eqn:E;
      try discriminate Hs.
    injection Hs as <-.
    pose proof (to_uint_normal n) as Hnorm. rewrite E in Hnorm.
    destruct (Decimal.nzhead (Decimal.D0 d)) eqn:Hz;
      [| rewrite DecimalFacts.unorm_nzhead in Hnorm
           by (rewrite Hz; discriminate);
         rewrite Hz in Hnorm; try discriminate Hnorm;
         destruct (DecimalFacts.nzhead_nonzero _ _ Hz) ..].
    apply DecimalFacts.unorm_0 in Hz. rewrite Hz in Hnorm.
    injection Hnorm as ->. reflexivity.
Qed.

Lemma string_app_assoc (s1 s2 s3 : string) :
  ((s1 ++ s2) ++ s3 = s1 ++ (s2 ++ s3))%string.
Proof.
  induction s1 as [|c s1 IH]; [reflexivity|].
  change (String c ((s1 ++ s2) ++ s3) = String c (s1 ++ s2 ++ s3))%string.
  now rewrite IH.
Qed.

Lemma join_from (rest : list string) (x pre : string) :
  (pre ++ Py.join ", " (x :: rest))%string
  = fold_left (fun acc y => acc ++ ", " ++ y)%string rest (pre ++ x)%string.
Proof.
  revert x pre; induction rest as [|y rest IH]; intros x pre; [reflexivity|].
  change (Py.join ", " (x :: y :: rest))
    with (x ++ ", " ++ Py.join ", " (y :: rest))%string.
  cbn [fold_left].
  replace ((pre ++ x) ++ ", " ++ y)%string
    with ((pre ++ x ++ ", ") ++ y)%string
    by (now rewrite !string_app_assoc).
  rewrite <- (IH y (pre ++ x ++ ", ")%string).
  now rewrite !string_app_assoc.
Qed.

(** [", ".join(l)] puts a comma and a space between neighbours. *)
Lemma join_comma_joined (l : list string) : Py.join ", " l = comma_joined l.
Proof.
  destruct l as [|x rest]; [reflexivity|].
  exact (join_from rest x "").
Qed.

(** C5: the explanation of [process_aware_scorer] is
    "Found {total_events} total events: {model_event_count} model calls,
    {tool_call_count} tool calls. Tools used: {X}." where the three
    counts are printed as decimal numerals and X is the tool calls joined
    by ", " when there is one and 'none' when there is none, and the
    answer is the completion text.  So a log of twelve events, ten of
    them model calls and two tool calls, reads "Found 12 total events:
    10 model calls, 2 tool calls. Tools used: add, multiply.". *)
Theorem process_aware_explanation (state : TaskState) (target : Target) :
  let total_events := length (events state) in
  let model_event_count := length (List.filter is_model_event (events state)) in
  let tool_calls := tool_names (events state) in
  let tool_call_count := length tool_calls in
  let X := match tool_calls with
           | [] => "none"
           | _ :: _ => comma_joined tool_calls
           end in
  (exists s_total s_model s_calls : string,
      decimal_of total_events s_total
      /\ decimal_of model_event_count s_model
      /\ decimal_of tool_call_count s_calls
      /\ explanation (process_aware_scorer state target)
         = ("Found " ++ s_total ++ " total events: "
            ++ s_model ++ " model calls, "
            ++ s_calls ++ " tool calls. Tools used: " ++ X ++ ".")%string)
  /\ answer (process_aware_scorer state target) = completion (output state)
  /\ explanation
       (process_aware_scorer
          (mk_state (tool "add" :: repeat EModel 10 ++ [tool "multiply"])
                    "42")
          {| text := "42" |})
     = "Found 12 total events: 10 model calls, 2 tool calls. Tools used: add, multiply.".
Proof.
  cbn zeta. split; [|split; reflexivity].
  exists (Py.str (length (events state))),
         (Py.str (length (List.filter is_model_event (events state)))),
         (Py.str (length (tool_names (events state)))).
  repeat (split; [apply str_decimal|]).
  cbn [process_aware_scorer explanation]. rewrite tool_calls_names.
  unfold explanation_of, model_events_of.
  destruct (tool_names (events state)) as [|x rest] eqn:E; [reflexivity|].
  now rewrite join_comma_joined.
Qed.

(** C6: in the metadata of [process_aware_scorer], total_events is the
    length of the event sequence, model_events and tool_events count the
    model and the tool events, tool_events + model_events <= total_events
    with equality exactly when no event of another kind is present, and
    tools_used lists the function names of the tool events, duplicates
    kept, in occurrence order. *)
Theorem process_aware_metadata (state : TaskState) (target : Target) :
  let evs := events state in
  let md := metadata (process_aware_scorer state target) in
  let n_model := length (List.filter is_model_event evs) in
  let n_tool := length (List.filter is_tool_event evs) in
  md !! "total_events" = Some (VInt (length evs))
  /\ md !! "model_events" = Some (VInt n_model)
  /\ md !! "tool_events" = Some (VInt n_tool)
  /\ md !! "tools_used" = Some (VStrList (tool_names evs))
  /\ n_tool + n_model <= length evs
  /\ (n_tool + n_model = length evs <-> ~ exists k, In (EOther k) evs).
Proof.
  intros evs md n_model n_tool. subst md n_model n_tool.
  cbn [process_aware_scorer metadata]. fold evs.
  rewrite tool_calls_names, tool_events_length. unfold model_events_of.
  pose proof (partition_lengths evs) as Hp.
  rewrite tool_events_length in Hp. unfold model_events_of in Hp.
  repeat split; try (by simplify_map_eq); try lia.
  - intros Heq [k Hk].
    assert (In (EOther k) (List.filter is_other_event evs)) as Hin
      by (apply filter_In; auto).
    destruct (List.filter is_other_event evs); [destruct Hin | simpl in Hp; lia].
  - intros Hno.
    destruct (List.filter is_other_event evs) as [|e l] eqn:E; [simpl in Hp; lia|].
    assert (In e (List.filter is_other_event evs)) as Hin by (rewrite E; now left).
    apply filter_In in Hin as [Hin He]. destruct e; try discriminate.
    exfalso. eauto.
Qed.

(** ** [step_verification_scorer] *)

Lemma In_tool_events t evs :
  In t (tool_events_of evs) <-> In (ETool t) evs.
Proof.
  induction evs as [|[| t' |k] evs IH]; simpl; [tauto| | |]; rewrite IH.
  - intuition discriminate.
  - intuition congruence.
  - intuition discriminate.
Qed.

Lemma add_tool_used_spec evs :
  existsb (fun e => String.eqb (function e) "add") (tool_events_of evs) = true
  <-> required_tool_used evs.
Proof.
  unfold required_tool_used. rewrite existsb_exists.
  split; intros (t & Hin & Heq); exists t;
    (split; [now apply In_tool_events | now apply String.eqb_eq]).
Qed.

Lemma step_verification_cases state target :
  exists correct used : bool,
    (correct = true <-> is_substring (text target) (completion (output state)))
    /\ (used = true <-> required_tool_used (events state))
    /\ step_verification_scorer state target =
       {| value := match correct, used with
                   | true, true => 1.0
                   | true, false => 0.5
                   | false, true => 0.3
                   | false, false => 0.0
                   end%float;
          answer := completion (output state);
          explanation :=
            match correct, used with
            | true, true => "Correct answer and used required add tool"
            | true, false => "Correct answer but did not use required add tool"
            | false, true => "Used required add tool but incorrect answer"
            | false, false => "Incorrect answer and did not use required add tool"
            end;
          metadata := {["add_tool_used" := VBool used]} |}.
Proof.
  exists (Py.contains (text target) (completion (output state))),
         (existsb (fun e => String.eqb (function e) "add")
                  (tool_events_of (events state))).
  split; [apply contains_is_substring|]. split; [apply add_tool_used_spec|].
  unfold step_verification_scorer.
  destruct (Py.contains _ _), (existsb _ _); reflexivity.
Qed.

(** C2, as stated, fails: with the target found and no tool call (the row
    correct, not used) the value is 0.5 but the explanation names the
    [add] tool; it is not the table's "Correct answer but did not use
    required tool". *)
Lemma step_verification_explanation_names_add :
  let s := step_verification_scorer (mk_state [] "42") {| text := "42" |} in
  is_substring "42" "42"
  /\ ~ required_tool_used []
  /\ value s = 0.5%float
  /\ explanation s = "Correct answer but did not use required add tool"
  /\ explanation s <> "Correct answer but did not use required tool".
Proof.
  repeat split.
  - exists "", "". reflexivity.
  - intros (t & [] & _).
  - discriminate.
Qed.

(** C2, amended: [step_verification_scorer] returns value and explanation
    by the table on (correct, required_used), with the explanations the
    code writes, which name the [add] tool:
    (true, true) gives 1.0, "Correct answer and used required add tool";
    (true, false) gives 0.5, "Correct answer but did not use required add tool";
    (false, true) gives 0.3, "Used required add tool but incorrect answer";
    (false, false) gives 0.0, "Incorrect answer and did not use required add tool";
    so the value is always one of 0.0, 0.3, 0.5 and 1.0. *)
Theorem step_verification_table (state : TaskState) (target : Target) :
  let correct := is_substring (text target) (completion (output state)) in
  let required_used := required_tool_used (events state) in
  let s := step_verification_scorer state target in
  (correct /\ required_used ->
   value s = 1.0%float
   /\ explanation s = "Correct answer and used required add tool")
  /\ (correct /\ ~ required_used ->
      value s = 0.5%float
      /\ explanation s = "Correct answer but did not use required add tool")
  /\ (~ correct /\ required_used ->
      value s = 0.3%float
      /\ explanation s = "Used required add tool but incorrect answer")
  /\ (~ correct /\ ~ required_used ->
      value s = 0.0%float
      /\ explanation s = "Incorrect answer and did not use required add tool")
  /\ In (value s) [0.0; 0.3; 0.5; 1.0]%float.
Proof.
  intros correct required_used s. subst correct required_used s.
  destruct (step_verification_cases state target)
    as (c & u & <- & <- & ->).
  cbn [value explanation].
  destruct c, u; repeat split; simpl; intuition congruence.
Qed.

(** The four rows of the table, each at an input that reaches it. *)
Lemma step_verification_table_witness :
  let t42 := {| text := "42" |} in
  (value (step_verification_scorer (mk_state [tool "add"] "is 42") t42)
   = 1.0%float
   /\ explanation (step_verification_scorer (mk_state [tool "add"] "is 42") t42)
      = "Correct answer and used required add tool")
  /\ (value (step_verification_scorer (mk_state [tool "multiply"] "is 42") t42)
      = 0.5%float
      /\ explanation
           (step_verification_scorer (mk_state [tool "multiply"] "is 42") t42)
         = "Correct answer but did not use required add tool")
  /\ (value (step_verification_scorer (mk_state [EModel; tool "add"] "41") t42)
      = 0.3%float
      /\ explanation
           (step_verification_scorer (mk_state [EModel; tool "add"] "41") t42)
         = "Used required add tool but incorrect answer")
  /\ (value (step_verification_scorer (mk_state [] "41") t42) = 0.0%float
      /\ explanation (step_verification_scorer (mk_state [] "41") t42)
         = "Incorrect answer and did not use required add tool").
Proof.
  intros t42.
  assert (is_substring "42" "is 42") as Hyes
    by (apply contains_is_substring; reflexivity).
  assert (~ is_substring "42" "41") as Hno
    by (intros H%contains_is_substring; discriminate H).
  assert (required_tool_used [tool "add"]) as Hadd
    by (apply add_tool_used_spec; reflexivity).
  assert (required_tool_used [EModel; tool "add"]) as Hadd'
    by (apply add_tool_used_spec; reflexivity).
  assert (~ required_tool_used [tool "multiply"]) as Hmul
    by (intros H%add_tool_used_spec; discriminate H).
  assert (~ required_tool_used []) as Hnil
    by (intros H%add_tool_used_spec; discriminate H).
  split; [|split; [|split]].
  - apply (step_verification_table (mk_state [tool "add"] "is 42") t42).
    split; assumption.
  - apply (step_verification_table (mk_state [tool "multiply"] "is 42") t42).
    split; assumption.
  - apply (step_verification_table (mk_state [EModel; tool "add"] "41") t42).
    split; assumption.
  - apply (step_verification_table (mk_state [] "41") t42).
    split; assumption.
Defined.

(** C4, as stated, fails on the key: the metadata of
    [step_verification_scorer] has no entry [required_tool_used]; its one
    key is [add_tool_used]. *)
Lemma step_verification_metadata_key :
  let md := metadata (step_verification_scorer (mk_state [tool "add"] "42")
                                               {| text := "42" |}) in
  md !! "required_tool_used" = None
  /\ md !! "add_tool_used" = Some (VBool true)
  /\ md <> {["required_tool_used" := VBool true]}.
Proof.
  repeat split.
  intros H.
  apply (f_equal (fun m : gmap string MetaValue => m !! "add_tool_used")) in H.
  vm_compute in H. discriminate H.
Qed.

(** C4, amended: [required_used] is true exactly when some tool event's
    function name is "add", and the metadata of [step_verification_scorer]
    is the single-entry mapping {add_tool_used: required_used}. *)
Theorem step_verification_metadata (state : TaskState) (target : Target) :
  exists required_used : bool,
    (required_used = true <->
     exists t, In (ETool t) (events state) /\ function t = "add")
    /\ metadata (step_verification_scorer state target)
       = {["add_tool_used" := VBool required_used]}.
Proof.
  destruct (step_verification_cases state target) as (c & u & _ & Hu & ->).
  exists u. split; [exact Hu | reflexivity].
Qed.

(** ** Running the scorers over the store *)

Section StoreRuns.

Context {B : Type}.
Implicit Types (h : gmap Imp.loc (list Imp.pyval)) (r : Imp.loc).

Lemma filter_tool_events evs :
  List.filter Imp.isinstance_ToolEvent (event_list evs)
  = event_list (List.map ETool (tool_events_of evs)).
Proof.
  induction evs as [|[| t |k] evs IH]; simpl; auto. now rewrite IH.
Qed.

Lemma filter_model_events evs :
  List.filter Imp.isinstance_ModelEvent (event_list evs)
  = event_list (model_events_of evs).
Proof.
  induction evs as [|[| t |k] evs IH]; simpl; auto. now rewrite IH.
Qed.

Lemma strs_of_strings (ss : list string) :
  Imp.strs_of (List.map Imp.PStr ss) = Some ss.
Proof.
  induction ss as [|s ss IH]; simpl; [reflexivity|]. now rewrite IH.
Qed.

Lemma run_items h r l (k : list Imp.pyval -> Imp.M B) :
  h !! r = Some l -> Imp.bind (Imp.items r) k h = k l h.
Proof. intros H. unfold Imp.bind, Imp.items. now rewrite H. Qed.

Lemma run_len h r l (k : nat -> Imp.M B) :
  h !! r = Some l -> Imp.bind (Imp.len r) k h = k (length l) h.
Proof.
  intros H. unfold Imp.len, mbind, Imp.M_bind, Imp.bind, Imp.items.
  now rewrite H.
Qed.

Lemma run_new_list h l (k : Imp.loc -> Imp.M B) :
  Imp.bind (Imp.new_list l) k h
  = k (fresh (dom h)) (<[fresh (dom h) := l]> h).
Proof. reflexivity. Qed.

Lemma run_strs h ss (k : list string -> Imp.M B) :
  Imp.bind (Imp.strs (List.map Imp.PStr ss)) k h = k ss h.
Proof. unfold Imp.bind, Imp.strs. now rewrite strs_of_strings. Qed.

(** The loop of [process_aware_scorer] appends the function name of each
    tool event to the list at [r], and writes nowhere else. *)
Lemma run_collect h r acc (ts : list ToolEvent) :
  h !! r = Some acc ->
  Imp.for_each (event_list (List.map ETool ts))
    (fun event =>
       Imp.bind (Imp.get_function event)
                (fun f => Imp.append r (Imp.PStr f))) h
  = Some (tt, <[r := acc ++ List.map Imp.PStr (List.map function ts)]> h).
Proof.
  revert h acc; induction ts as [|t ts IH]; intros h acc H; simpl.
  - rewrite app_nil_r, insert_id by exact H. reflexivity.
  - unfold mbind, Imp.M_bind, Imp.bind at 1. simpl.
    unfold Imp.bind at 1, Imp.ret, Imp.append. rewrite H.
    rewrite (IH _ (acc ++ [Imp.PStr (function t)]))
      by apply lookup_insert_eq.
    rewrite insert_insert_eq, <- app_assoc. reflexivity.
Qed.

Lemma run_any h name (ts : list ToolEvent) :
  Imp.any_function_is name (event_list (List.map ETool ts)) h
  = Some (existsb (fun e => String.eqb (function e) name) ts, h).
Proof.
  induction ts as [|t ts IH]; simpl; [reflexivity|].
  unfold mbind, Imp.M_bind, Imp.bind, Imp.ret. simpl.
  destruct (String.eqb (function t) name); [reflexivity | exact IH].
Qed.

End StoreRuns.

Lemma run_bind {A B} (m : Imp.M A) (k : A -> Imp.M B) h a h' :
  m h = Some (a, h') -> Imp.bind m k h = k a h'.
Proof. intros H. unfold Imp.bind. now rewrite H. Qed.

Lemma fresh_lookup (h : gmap Imp.loc (list Imp.pyval)) :
  h !! fresh (dom h) = None.
Proof. apply not_elem_of_dom, is_fresh. Qed.

Lemma process_aware_scorer_run h state target evs :
  h !! Imp.events_ref state = Some (event_list evs) ->
  exists s h',
    Imp.process_aware_scorer state target h = Some (s, h')
    /\ h ⊆ h'
    /\ forall h'', h' ⊆ h'' ->
         Imp.contents h'' s
         = process_aware_scorer (Imp.state_of state evs) target.
Proof.
  intros Hev.
  set (tes := tool_events_of evs).
  set (names := List.map function tes).
  set (r1 := fresh (dom h)).
  set (h1 := <[r1 := event_list (List.map ETool tes)]> h).
  set (r2 := fresh (dom h1)).
  set (h2 := <[r2 := event_list (model_events_of evs)]> h1).
  set (r3 := fresh (dom h2)).
  set (h4 := <[r3 := List.map Imp.PStr names]> h2).
  assert (h ⊆ h1) as H01 by apply insert_subseteq, fresh_lookup.
  assert (h1 ⊆ h2) as H12 by apply insert_subseteq, fresh_lookup.
  assert (h2 ⊆ h4) as H24 by apply insert_subseteq, fresh_lookup.
  assert (h4 !! r3 = Some (List.map Imp.PStr names)) as L3
    by apply lookup_insert_eq.
  assert (h4 !! r2 = Some (event_list (model_events_of evs))) as L2
    by (eapply lookup_weaken; [apply lookup_insert_eq | exact H24]).
  assert (h4 !! r1 = Some (event_list (List.map ETool tes))) as L1.
  { eapply lookup_weaken; [apply lookup_insert_eq|].
    etrans; [exact H12 | exact H24]. }
  assert (h ⊆ h4) as H04 by (etrans; [exact H01|]; etrans; eauto).
  assert (h4 !! Imp.events_ref state = Some (event_list evs)) as L0
    by (eapply lookup_weaken; eauto).
  eexists _, h4. split; [|split; [exact H04|]].
  - unfold Imp.process_aware_scorer, mbind, Imp.M_bind. cbn zeta.
    rewrite (run_items _ _ _ _ Hev).
    rewrite filter_tool_events, filter_model_events.
    rewrite !run_new_list. fold tes r1 h1 r2 h2 r3.
    rewrite (run_items _ r1 (event_list (List.map ETool tes))).
    2:{ eapply lookup_weaken; [apply lookup_insert_eq|].
        etrans; [exact H12 | apply insert_subseteq, fresh_lookup]. }
    rewrite (run_bind _ _ _ _ _
               (run_collect _ r3 [] tes (lookup_insert_eq _ _ _))).
    rewrite insert_insert_eq. cbn [app]. fold names h4.
    rewrite !(run_len _ _ _ _ L3), (run_len _ _ _ _ L0), (run_len _ _ _ _ L2).
    rewrite (run_items _ _ _ _ L3), run_strs.
    rewrite (run_len _ _ _ _ L0), (run_len _ _ _ _ L2), (run_len _ _ _ _ L1).
    unfold Imp.ret. reflexivity.
  - intros h'' Hh''.
    assert (Imp.resolve h'' (Imp.OList r3) = Some (VStrList names)) as R3.
    { unfold Imp.resolve. rewrite (lookup_weaken _ _ _ _ L3 Hh''). cbn.
      now rewrite strs_of_strings. }
    unfold Imp.contents, process_aware_scorer, pre_clamp_score.
    cbn [Imp.value_of Imp.answer_of Imp.explanation_of_score Imp.metadata_of
         Imp.state_of events output].
    rewrite collect_tool_calls_map. fold tes names.
    unfold event_list. rewrite !length_map.
    f_equal.
    rewrite (omap_insert_Some _ _ _ _ (VInt (length evs))) by reflexivity.
    rewrite (omap_insert_Some _ _ _ _ (VInt (length (model_events_of evs))))
      by reflexivity.
    rewrite (omap_insert_Some _ _ _ _ (VInt (length tes))) by reflexivity.
    rewrite (omap_insert_Some _ _ _ _ _ R3), omap_empty.
    reflexivity.
Qed.

Lemma step_verification_scorer_run h state target evs :
  h !! Imp.events_ref state = Some (event_list evs) ->
  exists s h',
    Imp.step_verification_scorer state target h = Some (s, h')
    /\ h ⊆ h'
    /\ forall h'', h' ⊆ h'' ->
         Imp.contents h'' s
         = step_verification_scorer (Imp.state_of state evs) target.
Proof.
  intros Hev.
  set (tes := tool_events_of evs).
  set (r1 := fresh (dom h)).
  set (h1 := <[r1 := event_list (List.map ETool tes)]> h).
  set (p := step_verification_scorer (Imp.state_of state evs) target).
  assert (h1 !! r1 = Some (event_list (List.map ETool tes))) as L1
    by apply lookup_insert_eq.
  exists {| Imp.value_of := value p;
            Imp.answer_of := answer p;
            Imp.explanation_of_score := explanation p;
            Imp.metadata_of :=
              {["add_tool_used" :=
                  Imp.OBool (existsb (fun e => String.eqb (function e) "add")
                                     tes)]} |}, h1.
  split; [|split; [apply insert_subseteq, fresh_lookup|]].
  - unfold Imp.step_verification_scorer, mbind, Imp.M_bind. cbn zeta.
    rewrite (run_items _ _ _ _ Hev), filter_tool_events, run_new_list.
    fold tes r1 h1.
    rewrite (run_items _ _ _ _ L1).
    rewrite (run_bind _ _ _ _ _ (run_any _ "add" tes)).
    subst p. unfold step_verification_scorer, Imp.state_of.
    cbn [events output]. fold tes.
    destruct (Py.contains _ _), (existsb _ tes); reflexivity.
  - intros h'' _. unfold Imp.contents.
    cbn [Imp.value_of Imp.answer_of Imp.explanation_of_score Imp.metadata_of].
    rewrite (omap_singleton_Some _ _ _ (VBool _)) by reflexivity.
    subst p. unfold step_verification_scorer, Imp.state_of.
    cbn [events output]. fold tes.
    destruct (Py.contains _ _), (existsb _ tes); reflexivity.
Qed.

(** ** Totality, determinism and purity *)

(** C8: both scorers are total, no step raises: on every store whose
    event list holds events, each returns a score, the one the functions
    above compute.  On the empty log with target "42" and completion "42"
    [process_aware_scorer] gives value 1.0, tools_used = [] and an
    explanation with 0 total events, 0 tool calls and "none" for the tools
    used.  An event of an unrecognised kind leaves the tool and model
    partitions as they are and adds one to total_events. *)
Theorem scorers_total
  (h : gmap Imp.loc (list Imp.pyval)) (state : Imp.TaskStateObj)
  (target : Target) (evs : list Event) :
  h !! Imp.events_ref state = Some (event_list evs) ->
  (exists s h',
      Imp.process_aware_scorer state target h = Some (s, h')
      /\ Imp.contents h' s
         = process_aware_scorer (Imp.state_of state evs) target)
  /\ (exists s h',
         Imp.step_verification_scorer state target h = Some (s, h')
         /\ Imp.contents h' s
            = step_verification_scorer (Imp.state_of state evs) target)
  /\ (let s := process_aware_scorer (mk_state [] "42") {| text := "42" |} in
      value s = 1.0%float
      /\ metadata s !! "tools_used" = Some (VStrList [])
      /\ explanation s
         = "Found 0 total events: 0 model calls, 0 tool calls. Tools used: none.")
  /\ (forall evs1 evs2 k c tgt,
         let s := process_aware_scorer
                    (mk_state (evs1 ++ EOther k :: evs2) c) tgt in
         let s0 := process_aware_scorer (mk_state (evs1 ++ evs2) c) tgt in
         metadata s !! "tool_events" = metadata s0 !! "tool_events"
         /\ metadata s !! "model_events" = metadata s0 !! "model_events"
         /\ metadata s !! "tools_used" = metadata s0 !! "tools_used"
         /\ metadata s !! "total_events"
            = Some (VInt (S (length (evs1 ++ evs2))))
         /\ metadata s0 !! "total_events"
            = Some (VInt (length (evs1 ++ evs2)))
         /\ value s = value s0).
Proof.
  intros Hev. split; [|split; [|split]].
  - destruct (process_aware_scorer_run h state target evs Hev)
      as (s & h' & Hrun & _ & Hc).
    exists s, h'. split; [exact Hrun | now apply Hc].
  - destruct (step_verification_scorer_run h state target evs Hev)
      as (s & h' & Hrun & _ & Hc).
    exists s, h'. split; [exact Hrun | now apply Hc].
  - repeat split.
  - intros evs1 evs2 k c tgt s s0.
    assert (tool_events_of (evs1 ++ EOther k :: evs2)
            = tool_events_of (evs1 ++ evs2)) as Ht.
    { induction evs1 as [|[| t |k'] evs1 IH]; simpl; auto. now rewrite IH. }
    assert (model_events_of (evs1 ++ EOther k :: evs2)
            = model_events_of (evs1 ++ evs2)) as Hm.
    { unfold model_events_of. now rewrite !List.filter_app. }
    assert (length (evs1 ++ EOther k :: evs2) = S (length (evs1 ++ evs2)))
      as Hl by (rewrite !length_app; simpl; lia).
    subst s s0. unfold process_aware_scorer, mk_state.
    cbn [events output completion metadata value initial_score].
    rewrite Ht, Hm, Hl.
    repeat split; by simplify_map_eq.
Qed.

Lemma scorers_total_witness :
  let h := log_at 5%positive [] in
  let state := state_at 5%positive "42" in
  let target := {| text := "42" |} in
  (exists s h',
      Imp.process_aware_scorer state target h = Some (s, h')
      /\ Imp.contents h' s
         = process_aware_scorer (Imp.state_of state []) target)
  /\ (exists s h',
         Imp.step_verification_scorer state target h = Some (s, h')
         /\ Imp.contents h' s
            = step_verification_scorer (Imp.state_of state []) target).
Proof.
  intros h state target.
  destruct (scorers_total h state target [] eq_refl) as (HA & HB & _).
  exact (conj HA HB).
Defined.

(** C9: both scorers are deterministic and pure.  Two invocations on
    identical events, target and completion, in whatever stores (the
    second may run in the store the first left behind), return scores
    that agree on value, answer, explanation and metadata; and an
    invocation changes no object of the store it starts from, so the
    inputs are not mutated: it only adds the lists it creates. *)
Theorem scorers_deterministic_pure
  (h h' : gmap Imp.loc (list Imp.pyval)) (state state' : Imp.TaskStateObj)
  (target : Target) (evs : list Event) :
  h !! Imp.events_ref state = Some (event_list evs) ->
  h' !! Imp.events_ref state' = Some (event_list evs) ->
  Imp.output_of state = Imp.output_of state' ->
  (exists s k s' k',
      Imp.process_aware_scorer state target h = Some (s, k)
      /\ Imp.process_aware_scorer state' target h' = Some (s', k')
      /\ Imp.contents k s = Imp.contents k' s'
      /\ h ⊆ k /\ h' ⊆ k')
  /\ (exists s k s' k',
         Imp.step_verification_scorer state target h = Some (s, k)
         /\ Imp.step_verification_scorer state' target h' = Some (s', k')
         /\ Imp.contents k s = Imp.contents k' s'
         /\ h ⊆ k /\ h' ⊆ k').
Proof.
  intros Hev Hev' Hout.
  assert (Imp.state_of state evs = Imp.state_of state' evs) as Hst
    by (unfold Imp.state_of; now rewrite Hout).
  split.
  - destruct (process_aware_scorer_run h state target evs Hev)
      as (s & k & Hrun & Hsub & Hc).
    destruct (process_aware_scorer_run h' state' target evs Hev')
      as (s' & k' & Hrun' & Hsub' & Hc').
    exists s, k, s', k'. repeat split; auto.
    rewrite (Hc k), (Hc' k'), Hst; reflexivity.
  - destruct (step_verification_scorer_run h state target evs Hev)
      as (s & k & Hrun & Hsub & Hc).
    destruct (step_verification_scorer_run h' state' target evs Hev')
      as (s' & k' & Hrun' & Hsub' & Hc').
    exists s, k, s', k'. repeat split; auto.
    rewrite (Hc k), (Hc' k'), Hst; reflexivity.
Qed.

(** The second invocation runs in the store the first one left. *)
Lemma scorers_deterministic_pure_witness :
  let evs := [tool "add"; EModel; EOther "StateEvent"; tool "multiply"] in
  let state := state_at 5%positive "the answer is 42" in
  let target := {| text := "42" |} in
  let h := log_at 5%positive evs in
  let h' := store_after (Imp.process_aware_scorer state target) h in
  (exists s k s' k',
      Imp.process_aware_scorer state target h = Some (s, k)
      /\ Imp.process_aware_scorer state target h' = Some (s', k')
      /\ Imp.contents k s = Imp.contents k' s'
      /\ h ⊆ k /\ h' ⊆ k')
  /\ (exists s k s' k',
         Imp.step_verification_scorer state target h = Some (s, k)
         /\ Imp.step_verification_scorer state target h' = Some (s', k')
         /\ Imp.contents k s = Imp.contents k' s'
         /\ h ⊆ k /\ h' ⊆ k').
Proof.
  intros evs state target h h'.
  apply (scorers_deterministic_pure h h' state state target evs).
  - reflexivity.
  - vm_compute. reflexivity.
  - reflexivity.
Defined.

(** * Further properties of the scorers *)

(** ** The score of [process_aware_scorer] by answer and tool calls *)

Lemma n_tool_calls_names evs : n_tool_calls evs = length (tool_names evs).
Proof.
  unfold n_tool_calls. rewrite <- tool_events_length, <- tool_names_map.
  now rewrite length_map.
Qed.

Lemma process_aware_value_cases state target :
  value (process_aware_scorer state target) =
  match Py.contains (text target) (completion (output state)),
        usage_of (tool_names (events state)) with
  | true, ManyCalls => 0.9000000000000001
  | true, _ => 1.0
  | false, FewCalls => 0.1
  | false, _ => 0.0
  end%float.
Proof.
  rewrite value_pre_clamp, pre_clamp_score_cases. unfold initial_score.
  destruct (Py.contains _ _), (usage_of _); reflexivity.
Qed.

(** X1: the whole table of [process_aware_scorer].  A correct answer
    scores 1.0 with up to three tool calls (the bonus is clamped away) and
    0.9000000000000001 with more; a wrong answer scores 0.0 without a
    tool call, 0.1 with one to three, and 0.0 again with more than
    three. *)
Theorem process_aware_value_table (state : TaskState) (target : Target) :
  let n := n_tool_calls (events state) in
  let correct := is_substring (text target) (completion (output state)) in
  let v := value (process_aware_scorer state target) in
  (correct -> n <= 3 -> v = 1.0%float)
  /\ (correct -> 3 < n -> v = 0.9000000000000001%float)
  /\ (~ correct -> n = 0 -> v = 0.0%float)
  /\ (~ correct -> 1 <= n <= 3 -> v = 0.1%float)
  /\ (~ correct -> 3 < n -> v = 0.0%float).
Proof.
  intros n correct v. subst n correct v.
  rewrite n_tool_calls_names, process_aware_value_cases.
  rewrite <- contains_is_substring.
  pose proof (usage_of_length (tool_names (events state))) as Hu.
  destruct (Py.contains _ _), (usage_of _);
    repeat split; intros; try reflexivity; try lia; congruence.
Qed.

Lemma process_aware_value_table_witness :
  value (process_aware_scorer
           (mk_state [tool "add"; EModel; tool "add"] "so 42 it is")
           {| text := "42" |}) = 1.0%float
  /\ value (process_aware_scorer
              (mk_state [tool "add"; tool "add"; tool "add"; tool "multiply"]
                        "so 42 it is")
              {| text := "42" |}) = 0.9000000000000001%float
  /\ value (process_aware_scorer (mk_state [EModel] "41") {| text := "42" |})
     = 0.0%float
  /\ value (process_aware_scorer (mk_state [tool "add"; EModel] "41")
                                 {| text := "42" |}) = 0.1%float
  /\ value (process_aware_scorer
              (mk_state [tool "add"; tool "add"; tool "add"; tool "multiply"]
                        "41")
              {| text := "42" |}) = 0.0%float.
Proof.
  assert (is_substring "42" "so 42 it is") as Hyes
    by (apply contains_is_substring; reflexivity).
  assert (~ is_substring "42" "41") as Hno
    by (intros H%contains_is_substring; discriminate H).
  split; [|split; [|split; [|split]]].
  - destruct (process_aware_value_table
                (mk_state [tool "add"; EModel; tool "add"] "so 42 it is")
                {| text := "42" |}) as (H & _).
    apply H; [exact Hyes | cbn; lia].
  - destruct (process_aware_value_table
                (mk_state [tool "add"; tool "add"; tool "add"; tool "multiply"]
                          "so 42 it is")
                {| text := "42" |}) as (_ & H & _).
    apply H; [exact Hyes | cbn; lia].
  - destruct (process_aware_value_table (mk_state [EModel] "41")
                {| text := "42" |}) as (_ & _ & H & _).
    apply H; [exact Hno | reflexivity].
  - destruct (process_aware_value_table (mk_state [tool "add"; EModel] "41")
                {| text := "42" |}) as (_ & _ & _ & H & _).
    apply H; [exact Hno | cbn; lia].
  - destruct (process_aware_value_table
                (mk_state [tool "add"; tool "add"; tool "add"; tool "multiply"]
                          "41")
                {| text := "42" |}) as (_ & _ & _ & _ & H).
    apply H; [exact Hno | cbn; lia].
Defined.

Lemma tool_names_app evs1 evs2 :
  tool_names (evs1 ++ evs2) = tool_names evs1 ++ tool_names evs2.
Proof. apply flat_map_app. Qed.

(** X2: what one more tool call does to the score of
    [process_aware_scorer], wherever it is inserted in the log.  The
    first call leaves a correct answer at its score and raises a wrong
    one; the fourth call strictly lowers the score; any other call
    changes nothing. *)
Theorem one_more_tool_call
  (evs1 evs2 : list Event) (f c : string) (target : Target) :
  let n := n_tool_calls (evs1 ++ evs2) in
  let correct := is_substring (text target) c in
  let v := value (process_aware_scorer (mk_state (evs1 ++ evs2) c) target) in
  let v' := value (process_aware_scorer
                     (mk_state (evs1 ++ tool f :: evs2) c) target) in
  (n = 0 -> correct -> v' = v)
  /\ (n = 0 -> ~ correct -> (v <? v')%float = true)
  /\ (n = 3 -> (v' <? v)%float = true)
  /\ (n <> 0 -> n <> 3 -> v' = v).
Proof.
  intros n correct v v'. subst n correct v v'.
  rewrite n_tool_calls_names, !process_aware_value_cases.
  rewrite <- contains_is_substring.
  cbn [mk_state events output completion].
  assert (length (tool_names (evs1 ++ tool f :: evs2))
          = S (length (tool_names (evs1 ++ evs2)))) as Hlen.
  { rewrite !tool_names_app, !length_app. simpl. lia. }
  revert Hlen.
  generalize (tool_names (evs1 ++ evs2))
             (tool_names (evs1 ++ tool f :: evs2)).
  intros l l' Hlen.
  destruct l as [|a0 [|a1 [|a2 [|a3 l]]]];
    destruct l' as [|b0 [|b1 [|b2 [|b3 [|b4 l']]]]];
    try discriminate Hlen;
    destruct (Py.contains _ _); simpl;
    repeat split; intros; try reflexivity; try lia; congruence.
Qed.

Lemma one_more_tool_call_witness :
  let three := [tool "add"; EModel; tool "multiply"; tool "add"] in
  let t42 := {| text := "42" |} in
  (value (process_aware_scorer (mk_state (three ++ [tool "add"]) "42") t42)
   <? value (process_aware_scorer (mk_state (three ++ []) "42") t42))%float
  = true
  /\ (value (process_aware_scorer (mk_state ([] ++ [EModel]) "41") t42)
      <? value (process_aware_scorer
                  (mk_state ([] ++ tool "add" :: [EModel]) "41") t42))%float
     = true.
Proof.
  intros three t42. split.
  - destruct (one_more_tool_call three [] "add" "42" t42) as (_ & _ & H & _).
    apply H. reflexivity.
  - destruct (one_more_tool_call [] [EModel] "add" "41" t42)
      as (_ & H & _).
    apply H; [reflexivity|].
    intros H'%contains_is_substring. discriminate H'.
Defined.

(** ** Degenerate targets and padded completions *)

Lemma contains_empty s : Py.contains "" s = true.
Proof. destruct s; reflexivity. Qed.

Lemma string_length_app (s1 s2 : string) :
  String.length (s1 ++ s2)%string = String.length s1 + String.length s2.
Proof. induction s1 as [|c s1 IH]; simpl; [reflexivity | now rewrite IH]. Qed.

Lemma is_substring_length sub s :
  is_substring sub s -> String.length sub <= String.length s.
Proof.
  intros (pre & post & ->). rewrite !string_length_app. lia.
Qed.

Lemma is_substring_padded sub s pre post :
  is_substring sub s -> is_substring sub (pre ++ s ++ post)%string.
Proof.
  intros (pre' & post' & ->).
  exists (pre ++ pre')%string, (post' ++ post)%string.
  now rewrite !string_app_assoc.
Qed.

Lemma step_verification_value_cases state target :
  value (step_verification_scorer state target) =
  match Py.contains (text target) (completion (output state)),
        existsb (fun e => String.eqb (function e) "add")
                (tool_events_of (events state)) with
  | true, true => 1.0
  | true, false => 0.5
  | false, true => 0.3
  | false, false => 0.0
  end%float.
Proof.
  unfold step_verification_scorer.
  destruct (Py.contains _ _), (existsb _ _); reflexivity.
Qed.

(** X3: an empty target text is found in every completion, so every run
    counts as correct: [process_aware_scorer] gives 1.0 (or
    0.9000000000000001 with more than three tool calls) and
    [step_verification_scorer] gives 1.0 or 0.5, whatever the
    completion. *)
Theorem empty_target_scores (state : TaskState) (target : Target) :
  text target = "" ->
  In (value (process_aware_scorer state target))
     [1.0; 0.9000000000000001]%float
  /\ In (value (step_verification_scorer state target)) [1.0; 0.5]%float.
Proof.
  intros Ht.
  rewrite process_aware_value_cases, step_verification_value_cases, Ht.
  rewrite contains_empty.
  destruct (usage_of _), (existsb _ _); simpl; tauto.
Qed.

Lemma empty_target_scores_witness :
  In (value (process_aware_scorer (mk_state [tool "multiply"] "no idea")
                                  {| text := "" |}))
     [1.0; 0.9000000000000001]%float
  /\ In (value (step_verification_scorer (mk_state [tool "multiply"] "no idea")
                                         {| text := "" |}))
        [1.0; 0.5]%float.
Proof.
  apply (empty_target_scores (mk_state [tool "multiply"] "no idea")
                             {| text := "" |}).
  reflexivity.
Defined.

(** X4: a target text longer than the completion is never found:
    [process_aware_scorer] gives 0.0 or 0.1 and
    [step_verification_scorer] gives 0.0 or 0.3. *)
Theorem long_target_scores (state : TaskState) (target : Target) :
  String.length (completion (output state)) < String.length (text target) ->
  In (value (process_aware_scorer state target)) [0.0; 0.1]%float
  /\ In (value (step_verification_scorer state target)) [0.0; 0.3]%float.
Proof.
  intros Hlen.
  rewrite process_aware_value_cases, step_verification_value_cases.
  destruct (Py.contains _ _) eqn:E.
  - apply contains_is_substring, is_substring_length in E. lia.
  - destruct (usage_of _), (existsb _ _); simpl; tauto.
Qed.

Lemma long_target_scores_witness :
  In (value (process_aware_scorer (mk_state [tool "add"] "4")
                                  {| text := "42" |}))
     [0.0; 0.1]%float
  /\ In (value (step_verification_scorer (mk_state [tool "add"] "4")
                                         {| text := "42" |}))
        [0.0; 0.3]%float.
Proof.
  apply (long_target_scores (mk_state [tool "add"] "4") {| text := "42" |}).
  cbn. lia.
Defined.

(** X5: text added before or after the completion never lowers a score:
    a target that was found is still found, so both scorers give at least
    what they gave for the shorter completion. *)
Theorem padded_completion_scores
  (evs : list Event) (c pre post : string) (target : Target) :
  let padded := (pre ++ c ++ post)%string in
  (is_substring (text target) c -> is_substring (text target) padded)
  /\ (value (process_aware_scorer (mk_state evs c) target)
      <=? value (process_aware_scorer (mk_state evs padded) target))%float
     = true
  /\ (value (step_verification_scorer (mk_state evs c) target)
      <=? value (step_verification_scorer (mk_state evs padded) target))%float
     = true.
Proof.
  intros padded. subst padded.
  split; [apply is_substring_padded|].
  rewrite !process_aware_value_cases, !step_verification_value_cases.
  cbn [mk_state events output completion].
  destruct (Py.contains (text target) c) eqn:E.
  - apply contains_is_substring, (is_substring_padded _ _ pre post),
      contains_is_substring in E.
    rewrite E. destruct (usage_of _), (existsb _ _); split; reflexivity.
  - destruct (Py.contains (text target) (pre ++ c ++ post)),
      (usage_of _), (existsb _ _); split; reflexivity.
Qed.

(** ** The order of the events *)

Lemma filter_length_permuted {A} (f : A -> bool) (l l' : list A) :
  Permutation l l' ->
  length (List.filter f l) = length (List.filter f l').
Proof.
  induction 1 as [|x l l' _ IH|x y l|l l' l'' _ IH1 _ IH2]; simpl.
  - reflexivity.
  - destruct (f x); simpl; congruence.
  - destruct (f x), (f y); reflexivity.
  - congruence.
Qed.

Lemma usage_of_ext (l l' : list string) :
  length l = length l' -> usage_of l = usage_of l'.
Proof.
  destruct l as [|a0 [|a1 [|a2 [|a3 l]]]];
    destruct l' as [|b0 [|b1 [|b2 [|b3 l']]]];
    intros H; try discriminate H; reflexivity.
Qed.

Lemma process_aware_metadata_map state target :
  metadata (process_aware_scorer state target)
  = metadata_map (length (events state))
                 (length (List.filter is_model_event (events state)))
                 (n_tool_calls (events state))
                 (tool_names (events state)).
Proof.
  unfold process_aware_scorer, metadata_map, n_tool_calls, model_events_of.
  cbn [metadata]. now rewrite tool_calls_names, tool_events_length.
Qed.

(** X6: [process_aware_scorer] does not look at the order of the events:
    on a permuted log the value, the answer and the three counts are the
    same, and tools_used lists the same names, permuted. *)
Theorem process_aware_permuted
  (evs evs' : list Event) (c : string) (target : Target) :
  Permutation evs evs' ->
  let s := process_aware_scorer (mk_state evs c) target in
  let s' := process_aware_scorer (mk_state evs' c) target in
  value s = value s'
  /\ answer s = answer s'
  /\ exists total model tools used used',
       metadata s = metadata_map total model tools used
       /\ metadata s' = metadata_map total model tools used'
       /\ Permutation used used'.
Proof.
  intros Hp s s'. subst s s'.
  assert (Permutation (tool_names evs) (tool_names evs')) as Hn
    by (unfold tool_names; now apply Permutation_flat_map).
  split; [|split; [reflexivity|]].
  - rewrite !process_aware_value_cases. cbn [mk_state events output completion].
    now rewrite (usage_of_ext _ _ (Permutation_length Hn)).
  - exists (length evs), (length (List.filter is_model_event evs)),
      (n_tool_calls evs), (tool_names evs), (tool_names evs').
    rewrite !process_aware_metadata_map. cbn [mk_state events].
    unfold n_tool_calls.
    rewrite <- (Permutation_length Hp).
    rewrite <- !(filter_length_permuted _ _ _ Hp).
    auto.
Qed.

Lemma process_aware_permuted_witness :
  value (process_aware_scorer
           (mk_state [tool "add"; EModel; tool "multiply"] "42")
           {| text := "42" |})
  = value (process_aware_scorer
             (mk_state [EModel; tool "multiply"; tool "add"] "42")
             {| text := "42" |}).
Proof.
  apply (process_aware_permuted
           [tool "add"; EModel; tool "multiply"]
           [EModel; tool "multiply"; tool "add"] "42" {| text := "42" |}).
  apply (Permutation_cons_app [EModel; tool "multiply"] []).
  reflexivity.
Defined.

Lemma required_tool_used_permuted evs evs' :
  Permutation evs evs' -> required_tool_used evs -> required_tool_used evs'.
Proof.
  intros Hp (t & Hin & Hf). exists t. split; [|exact Hf].
  now apply (Permutation_in _ Hp).
Qed.

(** X7: [step_verification_scorer] checks that the [add] tool was called,
    not when: on a permuted log, so also with the call placed after the
    model's last turn, it returns the same score. *)
Theorem step_verification_permuted
  (evs evs' : list Event) (c : string) (target : Target) :
  Permutation evs evs' ->
  step_verification_scorer (mk_state evs c) target
  = step_verification_scorer (mk_state evs' c) target.
Proof.
  intros Hp.
  assert (existsb (fun e => String.eqb (function e) "add") (tool_events_of evs)
          = existsb (fun e => String.eqb (function e) "add")
                    (tool_events_of evs')) as He.
  { apply eq_true_iff_eq. rewrite !add_tool_used_spec.
    split; apply required_tool_used_permuted;
      [exact Hp | now apply Permutation_sym]. }
  unfold step_verification_scorer. cbn [mk_state events output completion].
  now rewrite He.
Qed.

Lemma step_verification_permuted_witness :
  step_verification_scorer (mk_state [tool "add"; EModel] "42")
                           {| text := "42" |}
  = step_verification_scorer (mk_state [EModel; tool "add"] "42")
                             {| text := "42" |}.
Proof.
  apply (step_verification_permuted [tool "add"; EModel] [EModel; tool "add"]).
  apply perm_swap.
Defined.

(** ** Longer logs *)

(** X8: more events never lower the score of [step_verification_scorer]:
    once [add] was called it stays called, wherever further events are
    inserted.  ([process_aware_scorer] has no such property: its fourth
    tool call lowers the score.) *)
Theorem step_verification_more_events
  (evs1 extra evs2 : list Event) (c : string) (target : Target) :
  (required_tool_used (evs1 ++ evs2) ->
   required_tool_used (evs1 ++ extra ++ evs2))
  /\ (value (step_verification_scorer (mk_state (evs1 ++ evs2) c) target)
      <=? value (step_verification_scorer
                   (mk_state (evs1 ++ extra ++ evs2) c) target))%float
     = true.
Proof.
  assert (required_tool_used (evs1 ++ evs2) ->
          required_tool_used (evs1 ++ extra ++ evs2)) as Hm.
  { intros (t & Hin & Hf). exists t. split; [|exact Hf].
    rewrite !in_app_iff in *. tauto. }
  split; [exact Hm|].
  rewrite !step_verification_value_cases.
  cbn [mk_state events output completion].
  rewrite <- !add_tool_used_spec in Hm.
  destruct (existsb _ (tool_events_of (evs1 ++ evs2))).
  - rewrite Hm by reflexivity. destruct (Py.contains _ _); reflexivity.
  - destruct (Py.contains _ _), (existsb _ _); reflexivity.
Qed.

(** X9: the metadata of [process_aware_scorer] on a log made of two
    parts: each count is the sum of the counts of the parts, and
    tools_used is the names of the first part followed by those of the
    second. *)
Theorem process_aware_metadata_app
  (evs1 evs2 : list Event) (c : string) (target : Target) :
  exists n1 m1 t1 l1 n2 m2 t2 l2,
    metadata (process_aware_scorer (mk_state evs1 c) target)
    = metadata_map n1 m1 t1 l1
    /\ metadata (process_aware_scorer (mk_state evs2 c) target)
       = metadata_map n2 m2 t2 l2
    /\ metadata (process_aware_scorer (mk_state (evs1 ++ evs2) c) target)
       = metadata_map (n1 + n2) (m1 + m2) (t1 + t2) (l1 ++ l2).
Proof.
  do 8 eexists. rewrite !process_aware_metadata_map.
  cbn [mk_state events]. split; [reflexivity|]. split; [reflexivity|].
  unfold n_tool_calls.
  now rewrite tool_names_app, !List.filter_app, !length_app.
Qed.

Lemma step_verification_more_events_witness :
  required_tool_used ([EModel] ++ [tool "multiply"; EModel] ++ [tool "add"])
  /\ (value (step_verification_scorer
               (mk_state ([EModel] ++ [tool "add"]) "42") {| text := "42" |})
      <=? value (step_verification_scorer
                   (mk_state ([EModel] ++ [tool "multiply"; EModel]
                              ++ [tool "add"]) "42")
                   {| text := "42" |}))%float = true.
Proof.
  destruct (step_verification_more_events
              [EModel] [tool "multiply"; EModel] [tool "add"] "42"
              {| text := "42" |}) as (Hu & Hv).
  split; [|exact Hv].
  apply Hu, add_tool_used_spec. reflexivity.
Defined.

Lemma padded_completion_scores_witness :
  is_substring "42" ("The answer is " ++ "42" ++ ".")%string
  /\ (value (process_aware_scorer (mk_state [tool "add"] "42")
                                  {| text := "42" |})
      <=? value (process_aware_scorer
                   (mk_state [tool "add"]
                             ("The answer is " ++ "42" ++ ".")%string)
                   {| text := "42" |}))%float = true.
Proof.
  destruct (padded_completion_scores [tool "add"] "42" "The answer is " "."
                                     {| text := "42" |}) as (Hs & Hv & _).
  split; [|exact Hv].
  apply Hs, contains_is_substring. reflexivity.
Defined.

(** ** The shape of the reports *)

(** X10: the keys of the metadata.  [process_aware_scorer] returns
    exactly the keys total_events, model_events, tool_events and
    tools_used, [step_verification_scorer] exactly add_tool_used; a lookup
    of any other key finds nothing. *)
Theorem metadata_keys (state : TaskState) (target : Target) :
  let md := metadata (process_aware_scorer state target) in
  let md' := metadata (step_verification_scorer state target) in
  dom md = ({["total_events"; "model_events"; "tool_events"; "tools_used"]}
            : gset string)
  /\ dom md' = ({["add_tool_used"]} : gset string)
  /\ (forall k, ~ In k ["total_events"; "model_events"; "tool_events";
                         "tools_used"] -> md !! k = None)
  /\ (forall k, k <> "add_tool_used" -> md' !! k = None).
Proof.
  intros md md'. subst md md'.
  rewrite process_aware_metadata_map.
  destruct (step_verification_cases state target) as (b & u & _ & _ & ->).
  cbn [metadata]. unfold metadata_map. split; [|split; [|split]].
  - rewrite !dom_insert_L, dom_empty_L. set_solver.
  - now rewrite dom_singleton_L.
  - intros k Hk. simpl in Hk.
    rewrite !lookup_insert_ne by (intros <-; tauto). apply lookup_empty.
  - intros k Hk. now apply lookup_singleton_ne.
Qed.

Lemma metadata_keys_witness :
  metadata (process_aware_scorer (mk_state [tool "add"] "42")
                                 {| text := "42" |}) !! "add_tool_used" = None
  /\ metadata (step_verification_scorer (mk_state [tool "add"] "42")
                                        {| text := "42" |}) !! "tools_used"
     = None.
Proof.
  destruct (metadata_keys (mk_state [tool "add"] "42") {| text := "42" |})
    as (_ & _ & H & H').
  split.
  - apply H. simpl. intros [E|[E|[E|[E|[]]]]]; discriminate E.
  - apply H'. discriminate.
Defined.


(** ** The store, on any list of items *)

Lemma filter_tool_items (l : list Imp.pyval) :
  List.filter Imp.isinstance_ToolEvent l
  = event_list (List.map ETool (tool_events_of (List.map event_of l))).
Proof.
  induction l as [|[[| t |k]|s] l IH]; simpl; auto. now rewrite IH.
Qed.

Lemma filter_model_items (l : list Imp.pyval) :
  List.filter Imp.isinstance_ModelEvent l
  = event_list (model_events_of (List.map event_of l)).
Proof.
  induction l as [|[[| t |k]|s] l IH]; simpl; auto. now rewrite IH.
Qed.

(** The run of [Imp.process_aware_scorer], step by step: the three lists
    it creates and the score object it returns. *)
Lemma process_aware_scorer_exact h state target (l : list Imp.pyval) :
  h !! Imp.events_ref state = Some l ->
  let evs := List.map event_of l in
  let p := process_aware_scorer (Imp.state_of state evs) target in
  let r1 := fresh (dom h) in
  let h1 := <[r1 := event_list (List.map ETool (tool_events_of evs))]> h in
  let r2 := fresh (dom h1) in
  let h2 := <[r2 := event_list (model_events_of evs)]> h1 in
  let r3 := fresh (dom h2) in
  Imp.process_aware_scorer state target h
  = Some ({| Imp.value_of := value p;
             Imp.answer_of := answer p;
             Imp.explanation_of_score := explanation p;
             Imp.metadata_of :=
               <["total_events" := Imp.OInt (length evs)]>
               (<["model_events" := Imp.OInt (length (model_events_of evs))]>
               (<["tool_events" := Imp.OInt (length (tool_events_of evs))]>
               (<["tools_used" := Imp.OList r3]> ∅))) |},
          <[r3 := List.map Imp.PStr (tool_names evs)]> h2).
Proof.
  intros Hev evs p r1 h1 r2 h2 r3.
  set (tes := tool_events_of evs) in *.
  set (names := tool_names evs).
  set (h4 := <[r3 := List.map Imp.PStr names]> h2).
  assert (names = List.map function tes) as Hnames
    by (symmetry; apply tool_names_map).
  assert (h ⊆ h1) as H01 by apply insert_subseteq, fresh_lookup.
  assert (h1 ⊆ h2) as H12 by apply insert_subseteq, fresh_lookup.
  assert (h2 ⊆ h4) as H24 by apply insert_subseteq, fresh_lookup.
  assert (h4 !! r3 = Some (List.map Imp.PStr names)) as L3
    by apply lookup_insert_eq.
  assert (h4 !! r2 = Some (event_list (model_events_of evs))) as L2
    by (eapply lookup_weaken; [apply lookup_insert_eq | exact H24]).
  assert (h4 !! r1 = Some (event_list (List.map ETool tes))) as L1.
  { eapply lookup_weaken; [apply lookup_insert_eq|].
    etrans; [exact H12 | exact H24]. }
  assert (h4 !! Imp.events_ref state = Some l) as L0.
  { eapply lookup_weaken; [exact Hev|].
    etrans; [exact H01|]. etrans; eauto. }
  unfold Imp.process_aware_scorer, mbind, Imp.M_bind. cbn zeta.
  rewrite (run_items _ _ _ _ Hev).
  rewrite filter_tool_items, filter_model_items.
  rewrite !run_new_list. fold evs tes r1 h1 r2 h2 r3.
  rewrite (run_items _ r1 (event_list (List.map ETool tes))).
  2:{ eapply lookup_weaken; [apply lookup_insert_eq|].
      etrans; [exact H12 | apply insert_subseteq, fresh_lookup]. }
  rewrite (run_bind _ _ _ _ _
             (run_collect _ r3 [] tes (lookup_insert_eq _ _ _))).
  rewrite insert_insert_eq. cbn [app]. rewrite <- Hnames. fold h4.
  rewrite !(run_len _ _ _ _ L3), (run_len _ _ _ _ L0), (run_len _ _ _ _ L2).
  rewrite (run_items _ _ _ _ L3), run_strs.
  rewrite (run_len _ _ _ _ L0), (run_len _ _ _ _ L2), (run_len _ _ _ _ L1).
  unfold Imp.ret. subst p.
  unfold process_aware_scorer, Imp.state_of, event_list.
  cbn [value answer explanation events output].
  fold evs tes. rewrite collect_tool_calls_map, <- Hnames.
  rewrite !length_map. subst evs. rewrite !length_map.
  reflexivity.
Qed.

Lemma step_verification_scorer_exact h state target (l : list Imp.pyval) :
  h !! Imp.events_ref state = Some l ->
  let evs := List.map event_of l in
  let p := step_verification_scorer (Imp.state_of state evs) target in
  Imp.step_verification_scorer state target h
  = Some ({| Imp.value_of := value p;
             Imp.answer_of := answer p;
             Imp.explanation_of_score := explanation p;
             Imp.metadata_of :=
               {["add_tool_used" :=
                   Imp.OBool (existsb (fun e => String.eqb (function e) "add")
                                      (tool_events_of evs))]} |},
          <[fresh (dom h) :=
              event_list (List.map ETool (tool_events_of evs))]> h).
Proof.
  intros Hev evs p.
  unfold Imp.step_verification_scorer, mbind, Imp.M_bind. cbn zeta.
  rewrite (run_items _ _ _ _ Hev), filter_tool_items, run_new_list.
  fold evs.
  rewrite (run_items _ _ _ _ (lookup_insert_eq _ _ _)).
  rewrite (run_bind _ _ _ _ _ (run_any _ "add" (tool_events_of evs))).
  subst p. unfold step_verification_scorer, Imp.state_of.
  cbn [events output].
  destruct (Py.contains _ _), (existsb _ (tool_events_of evs)); reflexivity.
Qed.

Lemma contents_process_aware h r v a e n m t names :
  h !! r = Some (List.map Imp.PStr names) ->
  Imp.contents h
    {| Imp.value_of := v;
       Imp.answer_of := a;
       Imp.explanation_of_score := e;
       Imp.metadata_of :=
         <["total_events" := Imp.OInt n]>
         (<["model_events" := Imp.OInt m]>
         (<["tool_events" := Imp.OInt t]>
         (<["tools_used" := Imp.OList r]> ∅))) |}
  = {| value := v; answer := a; explanation := e;
       metadata := metadata_map n m t names |}.
Proof.
  intros Hr. unfold Imp.contents, metadata_map.
  cbn [Imp.value_of Imp.answer_of Imp.explanation_of_score Imp.metadata_of].
  f_equal.
  rewrite (omap_insert_Some _ _ _ _ (VInt n)) by reflexivity.
  rewrite (omap_insert_Some _ _ _ _ (VInt m)) by reflexivity.
  rewrite (omap_insert_Some _ _ _ _ (VInt t)) by reflexivity.
  rewrite (omap_insert_Some _ _ _ _ (VStrList names)), omap_empty;
    [reflexivity|].
  unfold Imp.resolve. rewrite Hr. cbn. now rewrite strs_of_strings.
Qed.

Lemma score_eta (s : Score) :
  {| value := value s; answer := answer s; explanation := explanation s;
     metadata := metadata s |} = s.
Proof. now destruct s. Qed.

(** X12: stray strings among the events do not make the scorers raise.
    For a list that holds events (tool events with [str] function names)
    and strings, [isinstance] guards the access to [function], so a
    string is passed over like an event of another class: it counts in
    total_events and nowhere else, and both scorers return the score of
    the log read that way. *)
Theorem scorers_pass_over_other_items
  (h : gmap Imp.loc (list Imp.pyval)) (state : Imp.TaskStateObj)
  (target : Target) (l : list Imp.pyval) :
  h !! Imp.events_ref state = Some l ->
  let evs := List.map event_of l in
  (exists s h',
      Imp.process_aware_scorer state target h = Some (s, h')
      /\ Imp.contents h' s
         = process_aware_scorer (Imp.state_of state evs) target)
  /\ (exists s h',
         Imp.step_verification_scorer state target h = Some (s, h')
         /\ Imp.contents h' s
            = step_verification_scorer (Imp.state_of state evs) target)
  /\ length evs = length l
  /\ tool_names evs
     = flat_map (fun v => match v with
                          | Imp.PEvent (ETool t) => [function t]
                          | _ => []
                          end) l.
Proof.
  intros Hev evs. split; [|split; [|split]].
  - eexists _, _. split; [apply (process_aware_scorer_exact _ _ _ _ Hev)|].
    fold evs. rewrite (contents_process_aware _ _ _ _ _ _ _ _ (tool_names evs))
      by apply lookup_insert_eq.
    rewrite <- (score_eta (process_aware_scorer _ target)) at 4.
    rewrite process_aware_metadata_map. unfold n_tool_calls.
    rewrite <- tool_events_length. reflexivity.
  - eexists _, _. split; [apply (step_verification_scorer_exact _ _ _ _ Hev)|].
    fold evs. unfold Imp.contents.
    cbn [Imp.value_of Imp.answer_of Imp.explanation_of_score Imp.metadata_of].
    rewrite (omap_singleton_Some _ _ _ (VBool _)) by reflexivity.
    unfold step_verification_scorer, Imp.state_of. cbn [events output].
    destruct (Py.contains _ _), (existsb _ _); reflexivity.
  - subst evs. now rewrite length_map.
  - subst evs. unfold tool_names. clear Hev.
    induction l as [|[[| t |k]|s] l IH]; simpl; rewrite ?IH; reflexivity.
Qed.

Lemma scorers_pass_over_other_items_witness :
  let l := [Imp.PEvent (tool "add"); Imp.PStr "stray"; Imp.PEvent EModel] in
  let h : gmap Imp.loc (list Imp.pyval) := {[ 5%positive := l ]} in
  let state := state_at 5%positive "42" in
  let target := {| text := "42" |} in
  exists s h',
    Imp.process_aware_scorer state target h = Some (s, h')
    /\ Imp.contents h' s
       = process_aware_scorer
           (Imp.state_of state [tool "add"; EOther "str"; EModel]) target.
Proof.
  intros l h state target.
  destruct (scorers_pass_over_other_items h state target l eq_refl)
    as (H & _).
  exact H.
Defined.

(** X13: the tools_used entry of the metadata of [process_aware_scorer]
    refers to a list that the call created and that holds the tool
    names: it is not the caller's event list nor any object that existed
    before the call, and the caller's objects are as they were.  The
    metadata of [step_verification_scorer] holds no reference to a
    list. *)
Theorem tools_used_is_new_list
  (h : gmap Imp.loc (list Imp.pyval)) (state : Imp.TaskStateObj)
  (target : Target) (l : list Imp.pyval) :
  h !! Imp.events_ref state = Some l ->
  (exists s h' r,
      Imp.process_aware_scorer state target h = Some (s, h')
      /\ Imp.metadata_of s !! "tools_used" = Some (Imp.OList r)
      /\ h !! r = None
      /\ r <> Imp.events_ref state
      /\ h' !! r
         = Some (List.map Imp.PStr (tool_names (List.map event_of l)))
      /\ h ⊆ h')
  /\ (exists s h',
         Imp.step_verification_scorer state target h = Some (s, h')
         /\ forall key r, Imp.metadata_of s !! key <> Some (Imp.OList r)).
Proof.
  intros Hev. split.
  - eexists _, _, _.
    split; [apply (process_aware_scorer_exact _ _ _ _ Hev)|].
    cbn [Imp.metadata_of].
    split; [by simplify_map_eq|].
    assert (forall (m : gmap Imp.loc (list Imp.pyval)) x,
               m ⊆ <[fresh (dom m) := x]> m) as Hfresh
      by (intros; apply insert_subseteq, fresh_lookup).
    match goal with
    | |- ?g !! ?r = None /\ _ =>
        assert (g !! r = None) as Hnew
          by (eapply lookup_weaken_None; [apply fresh_lookup|];
              etrans; apply Hfresh)
    end.
    split; [exact Hnew|]. split; [congruence|].
    split; [apply lookup_insert_eq|].
    etrans; [apply Hfresh|]. etrans; apply Hfresh.
  - eexists _, _.
    split; [apply (step_verification_scorer_exact _ _ _ _ Hev)|].
    cbn [Imp.metadata_of].
    intros key r.
    destruct (decide (key = "add_tool_used")) as [->|Hne].
    + rewrite lookup_singleton_eq. discriminate.
    + rewrite lookup_singleton_ne by auto. discriminate.
Qed.

Lemma tools_used_is_new_list_witness :
  let h := log_at 5%positive [tool "add"; EModel] in
  let state := state_at 5%positive "42" in
  let target := {| text := "42" |} in
  exists s h' r,
    Imp.process_aware_scorer state target h = Some (s, h')
    /\ Imp.metadata_of s !! "tools_used" = Some (Imp.OList r)
    /\ h !! r = None
    /\ r <> 5%positive
    /\ h' !! r = Some [Imp.PStr "add"]
    /\ h ⊆ h'.
Proof.
  intros h state target.
  destruct (tools_used_is_new_list h state target
              (event_list [tool "add"; EModel]) eq_refl) as (H & _).
  exact H.
Defined.
